(** * blenderpy: running Python scripts in Blender

    A shallow embedding of [blender.py] and [src/main.py]: the command
    builder ([Blender.run]), the gist runner ([Blender.run_gist]), the
    dictionary descent ([Blender.extract_dict_value]) and the argument
    splitter ([BlenderParser._get_argv_after_doubledash]).

    Python values are an inductive type, exceptions are a sum type, and the
    outside world (file system, spawned shell commands, the instance's
    attribute) is threaded through a state-and-error monad. *)

From Stdlib Require Import String Ascii List ZArith Bool Lia.
From stdpp Require Import base option strings list gmap fin_maps.

Set Warnings "-register-all".
Local Open Scope string_scope.
Local Open Scope list_scope.

(** ** Python values *)

(** The values the code can meet: what [json.loads] produces, and what a
    caller can put in [*args] and [**kwargs].  A [dict] keeps insertion
    order, so it is an association list; [dict_get] reads the first
    binding of a key.  Numbers are only ever tested for their type and
    their truth value. *)
Inductive value : Type :=
  | VNone
  | VBool (b : bool)
  | VNum (z : Z)
  | VStr (s : string)
  | VList (l : list value)
  | VDict (d : list (string * value)).

(** The exceptions that can leave the modelled functions.  [ValueError]
    is the only one the repository raises itself; the others come from
    the interpreter, the file system or the network. *)
Inductive exn : Type :=
  | ValueError (msg : string)
  | TypeError
  | AttributeError
  | IndexError
  | FileNotFoundError
  | IsADirectoryError
  | FileExistsError
  | UnsupportedOperation
  | ExternalError (msg : string).

(** The outcome of a call: a returned value or a raised exception. *)
Inductive res (A : Type) : Type :=
  | Ok (a : A)
  | Raise (e : exn).
Arguments Ok {A} a.
Arguments Raise {A} e.

Definition is_str (v : value) : bool :=
  match v with VStr _ => true | _ => false end.

(** [isinstance(v, bool)] *)
Definition is_bool (v : value) : bool :=
  match v with VBool _ => true | _ => false end.

Definition is_none (v : value) : bool :=
  match v with VNone => true | _ => false end.

(** Python's truth value of an object, as used by [x if c else y]. *)
Definition truthy (v : value) : bool :=
  match v with
  | VNone => false
  | VBool b => b
  | VNum z => negb (Z.eqb z 0)
  | VStr s => negb (String.eqb s "")
  | VList l => match l with [] => false | _ => true end
  | VDict d => match d with [] => false | _ => true end
  end.

(** [d.get(k, default)] on an association list. *)
Fixpoint dict_get (d : list (string * value)) (k : string) (default : value)
  : value :=
  match d with
  | [] => default
  | (k', v) :: d' => if String.eqb k' k then v else dict_get d' k default
  end.

(** ** Strings *)

(** [p in s]: [p] occurs somewhere in [s]. *)
Fixpoint str_in (p s : string) : bool :=
  if String.prefix p s then true
  else match s with
       | EmptyString => false
       | String _ s' => str_in p s'
       end.

(** [s.endswith(p)]: some tail of [s] is [p]. *)
Fixpoint endswith (s p : string) : bool :=
  if String.eqb s p then true
  else match s with
       | EmptyString => false
       | String _ s' => endswith s' p
       end.

(** [sep.join(l)] for a list of strings. *)
Fixpoint join (sep : string) (l : list string) : string :=
  match l with
  | [] => ""
  | [x] => x
  | x :: l' => x +:+ sep +:+ join sep l'
  end.

(** [sep.join(l)] for a sequence of arbitrary objects: [str.join] raises
    [TypeError] on the first element that is not a string. *)
Fixpoint all_str (l : list value) : res (list string) :=
  match l with
  | [] => Ok []
  | VStr s :: l' =>
      match all_str l' with
      | Ok ss => Ok (s :: ss)
      | Raise e => Raise e
      end
  | _ :: _ => Raise TypeError
  end.

Definition py_join (sep : string) (l : list value) : res string :=
  match all_str l with
  | Ok ss => Ok (join sep ss)
  | Raise e => Raise e
  end.

(** The items a [for] loop, [any] or [join] draws from an object: the
    characters of a [str], the elements of a [list], the keys of a
    [dict]; [None] for an object that is not an [Iterable]. *)
Definition iterate (v : value) : option (list value) :=
  match v with
  | VStr s => Some (map (fun c => VStr (String c "")) (list_ascii_of_string s))
  | VList l => Some l
  | VDict d => Some (map (fun e => VStr e.1) d)
  | VNone | VBool _ | VNum _ => None
  end.

(** ** The world outside the interpreter *)

(** A file-system entry.  Paths are compared as written. *)
Inductive node : Type :=
  | Dir
  | File (content : string).

(** What a call can read and change: the instance attribute [self.app],
    the file system, and the commands handed to [Popen] so far. *)
Record state : Type := mkState {
  app : string;
  files : gmap string node;
  spawned : list string
}.

Definition set_app (b : string) (st : state) : state :=
  mkState b (files st) (spawned st).

Definition set_files (fs : gmap string node) (st : state) : state :=
  mkState (app st) fs (spawned st).

(** What the code calls but the repository does not define: the HTTP
    fetch followed by [json.loads], the child process (its effect on the
    file system and its decoded output), and [repr] of a [str]. *)
Class Runtime : Type := {
  urlopen : string -> res value;
  popen : string -> gmap string node -> gmap string node * res string;
  repr : string -> string
}.

(** Computations that read and change the [state] and may raise. *)
Definition M (A : Type) : Type := state -> state * res A.

Definition ret {A} (a : A) : M A := fun st => (st, Ok a).

Definition raise {A} (e : exn) : M A := fun st => (st, Raise e).

Definition bind {A B} (m : M A) (k : A -> M B) : M B :=
  fun st =>
    match m st with
    | (st', Ok a) => k a st'
    | (st', Raise e) => (st', Raise e)
    end.

Definition lift {A} (r : res A) : M A := fun st => (st, r).

(** Reading and assigning [self.app]. *)
Definition get_app : M string := fun st => (st, Ok (app st)).

Definition put_app (b : string) : M unit := fun st => (set_app b st, Ok tt).

Notation "'do' x <- m ; k" := (bind m (fun x => k))
  (at level 10, x name, m at level 100, k at level 200).

(** [p] is the directory [dir] or lies beneath it. *)
Definition under (dir p : string) : bool :=
  String.eqb p dir || String.prefix (dir +:+ "/") p.

(** [shutil.rmtree(dir)]: the directory and everything beneath it go. *)
Definition rmtree (dir : string) (fs : gmap string node) : gmap string node :=
  filter (fun e => under dir e.1 = false) fs.

(** The parameters of [TemporaryDirectory] (Python 3.12); they can only
    be passed by keyword here. *)
Definition tempdir_names : list string :=
  ["suffix"; "prefix"; "dir"; "ignore_cleanup_errors"; "delete"].

(** Binding [**kwargs] to these parameters: a keyword that is none of
    them is a [TypeError]. *)
Definition tempdir_accepts (kwargs : list (string * value)) : bool :=
  forallb (fun e => existsb (String.eqb e.1) tempdir_names) kwargs.

(** [if self._delete] in [__exit__]; [delete] is true when not passed. *)
Definition tempdir_delete (kwargs : list (string * value)) : bool :=
  truthy (dict_get kwargs "delete" (VBool true)).

(** [with TemporaryDirectory] called with [**kwargs], [as temp], around
    [body].  [made] is what
    [mkdtemp(suffix, prefix, dir)] comes to under these keyword
    arguments: the name of the directory it has made, which was not
    there before, or the exception it raised (a [dir] that does not
    exist, an argument of the wrong type, no usable name).  Leaving the
    block, by return or by exception, removes the directory tree unless
    [delete] was passed as false, and lets the outcome through.
    Removing a tree cannot fail in this file system, so
    [ignore_cleanup_errors] makes no difference here. *)
Definition TemporaryDirectory {A} (kwargs : list (string * value))
    (made : res string) (body : string -> M A) : M A :=
  fun st =>
    if negb (tempdir_accepts kwargs) then (st, Raise TypeError)
    else
      match made with
      | Raise e => (st, Raise e)
      | Ok temp =>
          match files st !! temp with
          | Some _ => (st, Raise FileExistsError)
          | None =>
              let '(st', r) :=
                body temp (set_files (<[temp := Dir]> (files st)) st) in
              if tempdir_delete kwargs
              then (set_files (rmtree temp (files st')) st', r)
              else (st', r)
          end
      end.

(** The state after a [with TemporaryDirectory() as temp] block that
    touched nothing else: created and removed again. *)
Definition swept (temp : string) (st : state) : state :=
  set_files (rmtree temp (<[temp := Dir]> (files st))) st.

(** The same when the directory is kept. *)
Definition kept (temp : string) (st : state) : state :=
  set_files (<[temp := Dir]> (files st)) st.

Definition left_after (kwargs : list (string * value)) (temp : string)
    (st : state) : state :=
  if tempdir_delete kwargs then swept temp st else kept temp st.

(** A file name that needs no resolution: not empty, not [.] or [..],
    without a slash or a NUL, and no longer than a name may be. *)
Definition plain_name (name : string) : bool :=
  negb (String.eqb name "") && negb (String.eqb name ".")
  && negb (String.eqb name "..") && negb (str_in "/" name)
  && negb (str_in (String Ascii.zero "") name)
  && Nat.leb (String.length name) 255.

(** [open(fp, "r")]: the file has to exist already.  The path is looked
    up as written, which is how a directory followed by a [plain_name]
    is found. *)
Definition open_r (fp : string) : M unit :=
  fun st =>
    match files st !! fp with
    | Some (File _) => (st, Ok tt)
    | Some Dir => (st, Raise IsADirectoryError)
    | None => (st, Raise FileNotFoundError)
    end.

(** [opened.writelines(text)] on a handle opened for reading: the loop
    over [text] calls [write] on each item, and [write] refuses; an empty
    iterable writes nothing and returns. *)
Definition writelines_r (text : value) : res unit :=
  match text with
  | VStr s => if String.eqb s "" then Ok tt else Raise UnsupportedOperation
  | VDict [] => Ok tt
  | VDict (_ :: _) => Raise UnsupportedOperation
  | VList [] => Ok tt
  | VList (VStr _ :: _) => Raise UnsupportedOperation
  | VList (_ :: _) => Raise TypeError
  | VNone | VBool _ | VNum _ => Raise TypeError
  end.

(** [keys: String | List[String]], told apart by [isinstance(keys, str)]. *)
Inductive keys : Type :=
  | Single (k : string)
  | Many (ks : list string).

(** [data.get(k, None)]: only a [dict] has [get]. *)
Definition py_get (data : value) (k : string) : res value :=
  match data with
  | VDict d => Ok (dict_get d k VNone)
  | _ => Raise AttributeError
  end.

(** ** blender.py *)

Module Blender.

(** [extract_dict_value] with a list of keys.  [data.get] is looked up
    before [keys[0]] is evaluated, so a value without [get] raises
    [AttributeError] and an exhausted key list raises [IndexError]. *)
Fixpoint extract_many (data : value) (ks : list string) : res value :=
  match data with
  | VNone => Ok VNone
  | VDict d =>
      match ks with
      | [] => Raise IndexError
      | k :: ks' => extract_many (dict_get d k VNone) ks'
      end
  | _ => Raise AttributeError
  end.

Definition extract_dict_value (data : value) (keys : keys) : res value :=
  match keys with
  | Single k => if is_none data then Ok VNone else py_get data k
  | Many ks => extract_many data ks
  end.

(** [__init__]: [self.app = app]. *)
Definition __init__ (app : string) (st : state) : state := set_app app st.

(** [if ".py" not in script: script += ".py"] *)
Definition with_py (script : string) : string :=
  if negb (str_in ".py" script) then script +:+ ".py" else script.

(** [speak]: the object it hands to [print].  A [str] is an [Iterable]
    too, so it takes the first branch. *)
Definition speak (text : value) : res value :=
  match iterate text with
  | Some words =>
      if negb (existsb is_str words)
      then Raise (ValueError "I only use strings.")
      else match py_join " " words with
           | Ok shout => Ok (VStr shout)
           | Raise e => Raise e
           end
  | None => Ok text
  end.

Section WithRuntime.
Context `{Runtime}.

(** [terminal(cmd)] with the default [Popen] settings. *)
Definition terminal (cmd : string) : M string :=
  fun st =>
    let '(fs, out) := popen cmd (files st) in
    (mkState (app st) fs (spawned st ++ [cmd]), out).

Definition get_gist (gid : string) : M value :=
  lift (urlopen ("https://api.github.com/gists/" +:+ gid)).

Definition run (script binary : option string) (args : list value)
    (kwargs : list (string * value)) : M string :=
  do _ <- match binary with
          | Some b => put_app b
          | None => ret tt
          end;
  match script with
  | None =>
      raise (ValueError
        "Provide either a local or external (gist) script source.")
  | Some script =>
      let script := with_py script in
      let gui :=
        if truthy (dict_get kwargs "headless" (VBool true))
        then "-b" else "" in
      let runtime :=
        if truthy (dict_get kwargs "python" (VBool true))
        then "-P" else "" in
      let audio :=
        if negb (truthy (dict_get kwargs "audio" (VBool false)))
        then "-noaudio" else "" in
      do python_args <- lift (py_join " " args);
      do self_app <- get_app;
      terminal (self_app +:+ " " +:+ audio +:+ " " +:+ gui +:+ " "
                +:+ runtime +:+ " " +:+ script +:+ " -- "
                +:+ python_args)
  end.

(** [f"{content}"] *)
Definition format_content (content : option keys) : string :=
  match content with
  | None => "None"
  | Some (Single k) => k
  | Some (Many ks) => "[" +:+ join ", " (map repr ks) +:+ "]"
  end.

(** The [if content is None / elif str / elif Iterable] chain that
    picks [text] out of the gist. *)
Definition gist_text (gist : value) (content : option keys) : res value :=
  match content with
  | None => Ok gist
  | Some (Single k) => py_get gist k
  | Some (Many ks) => extract_dict_value gist (Many ks)
  end.

(** The body of the [with] block of [run_gist]. *)
Definition gist_block (gid : string) (content : option keys)
    (temp : string) : M string :=
  do gist <- get_gist gid;
  let fp := temp +:+ "/" +:+ gid in
  do text <- lift (gist_text gist content);
  if is_none text then
    raise (ValueError ("Could not find any content under "
                       +:+ format_content content +:+ "."))
  else
    do _ <- open_r fp;
    do _ <- lift (writelines_r text);
    run (Some fp) None [] [].

(** [run_gist] with [gid], [content] and [**kwargs]: the keyword
    arguments go to
    [TemporaryDirectory]. *)
Definition run_gist (gid : string) (content : option keys)
    (kwargs : list (string * value)) (made : res string) : M string :=
  TemporaryDirectory kwargs made (gist_block gid content).

End WithRuntime.

End Blender.

(** ** src/main.py *)

Module SrcMain.

(** The two loops of [_dry_run]: [Some msg] when the loop returns
    [msg], [None] when it runs to its end.  A [dict] holds each key
    once, so [kwargs[arg]] is the value bound at that position. *)
Fixpoint check_args (python_args : list value) : option string :=
  match python_args with
  | [] => None
  | arg :: rest =>
      if negb (is_str arg)
      then Some "All Python arguments should be a string."
      else check_args rest
  end.

Fixpoint check_kwargs (kwargs : list (string * value)) : option string :=
  match kwargs with
  | [] => None
  | (arg, v) :: rest =>
      if negb (is_bool v) then Some (arg +:+ "; should be a boolean.")
      else check_kwargs rest
  end.

Definition _dry_run (python_args : list value)
    (kwargs : list (string * value)) : string :=
  match check_args python_args with
  | Some error => error
  | None =>
      match check_kwargs kwargs with
      | Some error => error
      | None => ""
      end
  end.

(** [if ".py" not in script: script = script + ".py"] *)
Definition with_py (script : string) : string :=
  if negb (str_in ".py" script) then script +:+ ".py" else script.

(** [speak]: the object it hands to [print].  A [str] is an [Iterable]
    too, so it takes the first branch. *)
Definition speak (text : value) : res value :=
  match iterate text with
  | Some words =>
      if negb (existsb is_str words)
      then Raise (ValueError "I only use strings.")
      else match py_join " " words with
           | Ok shout => Ok (VStr shout)
           | Raise e => Raise e
           end
  | None => Ok text
  end.

Section WithRuntime.
Context `{Runtime}.

Definition call (cmd : string) : M string :=
  fun st =>
    let '(fs, out) := popen cmd (files st) in
    (mkState (app st) fs (spawned st ++ [cmd]), out).

Definition run (script : string) (python_args : list value)
    (kwargs : list (string * value)) : M string :=
  let error := _dry_run python_args kwargs in
  if negb (String.eqb error "") then raise (ValueError error)
  else
    let script := with_py script in
    let gui :=
      if truthy (dict_get kwargs "headless" (VBool true))
      then "-b" else "" in
    let runtime :=
      if truthy (dict_get kwargs "python" (VBool true))
      then "-P" else "" in
    let audio :=
      if negb (truthy (dict_get kwargs "audio" (VBool false)))
      then "-noaudio" else "" in
    do python_args <- lift (py_join " " python_args);
    do self_app <- get_app;
    call (self_app +:+ " " +:+ audio +:+ " " +:+ gui +:+ " "
          +:+ runtime +:+ " " +:+ script +:+ " -- " +:+ python_args).

End WithRuntime.

End SrcMain.

(** ** The argument splitter ([BlenderParser]) *)

Module BlenderParser.

(** [argv.index(x)]: the position of the first [x], [ValueError] when
    there is none. *)
Fixpoint index (argv : list string) (x : string) : res nat :=
  match argv with
  | [] => Raise (ValueError "list.index(x): x not in list")
  | a :: argv' =>
      if String.eqb a x then Ok 0
      else match index argv' x with
           | Ok i => Ok (S i)
           | Raise e => Raise e
           end
  end.

(** [_get_argv_after_doubledash]: [argv[idx + 1:]] inside [try], the
    empty list in the [except ValueError] branch; any other exception
    would pass through. *)
Definition _get_argv_after_doubledash (argv : list string)
  : res (list string) :=
  match index argv "--" with
  | Ok idx => Ok (drop (idx + 1) argv)
  | Raise (ValueError _) => Ok []
  | Raise e => Raise e
  end.

End BlenderParser.

(** ** Callers and test doubles *)

(** One [run] call on an instance, and a caller making several calls in a
    row on the same instance, going on after a call that raised. *)
Record call : Type := mkCall {
  call_script : option string;
  call_binary : option string;
  call_args : list value;
  call_kwargs : list (string * value)
}.

Definition run_call `{Runtime} (c : call) (st : state) : state :=
  (Blender.run (call_script c) (call_binary c) (call_args c)
     (call_kwargs c) st).1.

Definition run_calls `{Runtime} (cs : list call) (st : state) : state :=
  fold_left (fun st c => run_call c st) cs st.

(** The keyword arguments of a caller who passes some of the three
    options, each as a boolean. *)
Definition kwarg (name : string) (o : option bool) : list (string * value) :=
  match o with
  | Some b => [(name, VBool b)]
  | None => []
  end.

Definition options (headless python audio : option bool)
  : list (string * value) :=
  kwarg "headless" headless ++ kwarg "python" python ++ kwarg "audio" audio.

(** The truth values [run] reads from [kwargs] for its three flags. *)
Definition headless_of (kwargs : list (string * value)) : bool :=
  truthy (dict_get kwargs "headless" (VBool true)).

Definition python_of (kwargs : list (string * value)) : bool :=
  truthy (dict_get kwargs "python" (VBool true)).

Definition audio_of (kwargs : list (string * value)) : bool :=
  truthy (dict_get kwargs "audio" (VBool false)).

(** A runtime for examples: the gist service answers [doc], the child
    process echoes its command line and leaves the files alone, and
    [repr] puts a string in single quotes. *)
Definition echo_runtime (doc : res value) : Runtime :=
  {| urlopen := fun _ => doc;
     popen := fun cmd fs => (fs, Ok cmd);
     repr := fun s => "'" +:+ s +:+ "'" |}.

Definition offline : res value := Raise (ExternalError "URLError").

(** A fresh instance, [Blender()], on an empty file system. *)
Definition fresh_blender : state := Blender.__init__ "blender" (mkState "" ∅ []).

(** Following the keys [ks] from [data], one [dict] lookup per key, leads
    to [v]; a key that is missing leads to [VNone]. *)
Inductive reaches : value -> list string -> value -> Prop :=
  | reaches_here (data : value) : reaches data [] data
  | reaches_step (d : list (string * value)) (k : string)
      (ks : list string) (v : value) :
      reaches (dict_get d k VNone) ks v -> reaches (VDict d) (k :: ks) v.

(** ** The command line as the specification words it *)

Definition spec_headless_flag (headless : bool) : string :=
  if headless then "-b" else "".

Definition spec_python_flag (python : bool) : string :=
  if python then "-P" else "".

Definition spec_audio_flag (audio : bool) : string :=
  if audio then "" else "-noaudio".

(** ["<executable> <audio_flag> <headless_flag> <python_flag> <script_path>
    -- <joined_extra_args>"]: seven tokens, one space between neighbours. *)
Definition spec_command (executable : string) (headless python audio : bool)
    (script_path : string) (extra_args : list string) : string :=
  join " " [executable; spec_audio_flag audio; spec_headless_flag headless;
            spec_python_flag python; script_path; "--";
            join " " extra_args].

(** * Properties *)

Section Splitter.
Import BlenderParser.

Lemma index_first (pre post : list string) (x : string) :
  x ∉ pre -> index (pre ++ x :: post) x = Ok (length pre).
Proof.
  induction pre as [|a pre IH]; intros Hpre; simpl.
  - by rewrite String.eqb_refl.
  - apply not_elem_of_cons in Hpre as [Hne Hpre].
    destruct (String.eqb_spec a x) as [->|_]; [done|].
    by rewrite IH.
Qed.

Lemma index_absent (argv : list string) (x : string) :
  x ∉ argv -> exists msg, index argv x = Raise (ValueError msg).
Proof.
  induction argv as [|a argv IH]; intros Habs; simpl.
  - eauto.
  - apply not_elem_of_cons in Habs as [Hne Habs].
    destruct (String.eqb_spec a x) as [->|_]; [done|].
    destruct (IH Habs) as [msg ->]. eauto.
Qed.

(** C8: [_get_argv_after_doubledash] returns the tokens strictly after
    the first ["--"], in order, and returns the empty list, without an
    error, when there is no ["--"]; the three sample calls evaluate as
    stated. *)
Theorem split_after_separator_spec :
  (forall pre post : list string,
      "--" ∉ pre ->
      _get_argv_after_doubledash (pre ++ "--" :: post) = Ok post)
  /\ (forall argv : list string,
         "--" ∉ argv -> _get_argv_after_doubledash argv = Ok [])
  /\ _get_argv_after_doubledash ["a"; "--"; "b"; "c"] = Ok ["b"; "c"]
  /\ _get_argv_after_doubledash ["a"; "b"] = Ok []
  /\ _get_argv_after_doubledash ["--"] = Ok [].
Proof.
  repeat split; try reflexivity.
  - intros pre post Hpre. unfold _get_argv_after_doubledash.
    rewrite (index_first _ _ _ Hpre).
    replace (length pre + 1) with (length (pre ++ ["--"])).
    + by rewrite (cons_middle "--" pre post), app_assoc, drop_app_length.
    + rewrite length_app. simpl. lia.
  - intros argv Habs. unfold _get_argv_after_doubledash.
    by destruct (index_absent _ _ Habs) as [msg ->].
Qed.

Lemma split_after_separator_spec_witness :
  ("--" ∉ ["x"; "y"])
  /\ _get_argv_after_doubledash (["x"; "y"] ++ "--" :: ["p"; "--"; "q"])
     = Ok ["p"; "--"; "q"]
  /\ _get_argv_after_doubledash ["x"; "y"] = Ok [].
Proof.
  assert (Hpre : "--" ∉ ["x"; "y"]).
  { intros H. repeat (apply elem_of_cons in H as [H|H]; [discriminate H|]).
    by apply elem_of_nil in H. }
  destruct split_after_separator_spec as (Hfirst & Habsent & _).
  split; [exact Hpre|]. split.
  - exact (Hfirst ["x"; "y"] ["p"; "--"; "q"] Hpre).
  - exact (Habsent ["x"; "y"] Hpre).
Defined.

End Splitter.

(** ** Strings *)

Section Strings.

Lemma prefix_refl (p : string) : String.prefix p p = true.
Proof.
  induction p as [|a p IH]; simpl; [done|].
  by destruct (ascii_dec a a).
Qed.

Lemma str_in_cons (p : string) (a : ascii) (s : string) :
  str_in p (String a s)
  = if String.prefix p (String a s) then true else str_in p s.
Proof. reflexivity. Qed.

Lemma str_in_app (p s : string) : str_in p (s +:+ p) = true.
Proof.
  induction s as [|a s IH].
  - destruct p; simpl; [done|].
    destruct (ascii_dec _ _); [|done]. by rewrite prefix_refl.
  - change (String a s +:+ p) with (String a (s +:+ p)).
    rewrite str_in_cons, IH. by destruct (String.prefix _ _).
Qed.

Lemma endswith_cons (a : ascii) (s p : string) :
  endswith (String a s) p
  = if String.eqb (String a s) p then true else endswith s p.
Proof. reflexivity. Qed.

Lemma endswith_spec (s p : string) :
  endswith s p = true <-> exists t, s = t +:+ p.
Proof.
  split.
  - induction s as [|a s IH].
    + simpl. destruct p; [by exists ""|done].
    + rewrite endswith_cons.
      destruct (String.eqb_spec (String a s) p) as [->|_].
      * by exists "".
      * intros [t ->]%IH. by exists (String a t).
  - intros [t ->]. induction t as [|a t IH].
    + change ("" +:+ p) with p.
      destruct p; [done|]. by rewrite endswith_cons, String.eqb_refl.
    + change (String a t +:+ p) with (String a (t +:+ p)).
      rewrite endswith_cons, IH. by destruct (String.eqb _ _).
Qed.

Lemma endswith_str_in (s p : string) :
  endswith s p = true -> str_in p s = true.
Proof. intros [t ->]%endswith_spec. apply str_in_app. Qed.

Lemma all_str_map (extra : list string) : all_str (map VStr extra) = Ok extra.
Proof. induction extra as [|x extra IH]; simpl; [done|]. by rewrite IH. Qed.

Lemma py_join_map (sep : string) (extra : list string) :
  py_join sep (map VStr extra) = Ok (join sep extra).
Proof. unfold py_join. by rewrite all_str_map. Qed.

Lemma all_str_non_str (l : list value) :
  Exists (fun v => is_str v = false) l -> all_str l = Raise TypeError.
Proof.
  induction 1 as [v l Hv|v l _ IH]; simpl.
  - by destruct v.
  - destruct v; try done. by rewrite IH.
Qed.

End Strings.

(** ** The [.py] extension *)

Section Extension.

(** A path without any [".py"] in it gets the extension. *)
Lemma with_py_appends (script : string) :
  str_in ".py" script = false ->
  Blender.with_py script = script +:+ ".py".
Proof. intros E. unfold Blender.with_py. by rewrite E. Qed.

(** A path that ends in [".py"] is left as it is. *)
Lemma with_py_keeps_suffix (script : string) :
  endswith script ".py" = true -> Blender.with_py script = script.
Proof.
  intros E%endswith_str_in. unfold Blender.with_py. by rewrite E.
Qed.

Lemma with_py_idempotent (script : string) :
  Blender.with_py (Blender.with_py script) = Blender.with_py script.
Proof.
  unfold Blender.with_py.
  destruct (str_in ".py" script) eqn:E; simpl.
  - by rewrite E.
  - by rewrite str_in_app.
Qed.

Lemma with_py_same (script : string) :
  SrcMain.with_py script = Blender.with_py script.
Proof. reflexivity. Qed.

End Extension.

(** ** The command builder *)

Ltac unfold_run :=
  unfold Blender.run, SrcMain.run, Blender.terminal, SrcMain.call,
    bind, ret, raise, lift, get_app, put_app, set_app; simpl.

Section CommandBuilder.
Context `{Runtime}.

(** [run] leaves in [self.app] the binary it was given, or what was
    there, whether it returns or raises. *)
Lemma run_app (st : state) (script binary : option string)
    (args : list value) (kwargs : list (string * value)) :
  app (Blender.run script binary args kwargs st).1
  = default (app st) binary.
Proof.
  unfold_run. destruct binary, script; simpl; try done.
  - destruct (py_join " " args); simpl; [|done]. by destruct (popen _ _).
  - destruct (py_join " " args); simpl; [|done]. by destruct (popen _ _).
Qed.

(** With a script and text arguments, [run] hands exactly one command
    to the shell, and that command is the specification's string. *)
Lemma run_spawned (st : state) (script : string) (binary : option string)
    (extra : list string) (kwargs : list (string * value)) :
  spawned (Blender.run (Some script) binary (map VStr extra) kwargs st).1
  = spawned st ++
    [spec_command (default (app st) binary) (headless_of kwargs)
       (python_of kwargs) (audio_of kwargs) (Blender.with_py script) extra].
Proof.
  unfold_run. rewrite py_join_map.
  unfold spec_command, headless_of, python_of, audio_of.
  destruct binary; simpl; destruct (popen _ _); simpl;
    destruct (truthy (dict_get kwargs "headless" _)),
             (truthy (dict_get kwargs "python" _)),
             (truthy (dict_get kwargs "audio" _)); reflexivity.
Qed.

Lemma check_args_map (extra : list string) :
  SrcMain.check_args (map VStr extra) = None.
Proof. induction extra; simpl; done. Qed.

Lemma check_kwargs_bool (kwargs : list (string * value)) :
  Forall (fun e => is_bool e.2 = true) kwargs ->
  SrcMain.check_kwargs kwargs = None.
Proof.
  induction 1 as [|[k v] kwargs Hv _ IH]; simpl; [done|].
  simpl in Hv. by rewrite Hv.
Qed.

(** The same for [src/main.py], once [_dry_run] has let the call pass. *)
Lemma main_run_spawned (st : state) (script : string)
    (extra : list string) (kwargs : list (string * value)) :
  SrcMain.check_kwargs kwargs = None ->
  spawned (SrcMain.run script (map VStr extra) kwargs st).1
  = spawned st ++
    [spec_command (app st) (headless_of kwargs) (python_of kwargs)
       (audio_of kwargs) (SrcMain.with_py script) extra].
Proof.
  intros Hk. unfold SrcMain.run, SrcMain._dry_run.
  rewrite check_args_map, Hk. unfold_run. rewrite py_join_map.
  unfold spec_command, headless_of, python_of, audio_of.
  simpl; destruct (popen _ _); simpl;
    destruct (truthy (dict_get kwargs "headless" _)),
             (truthy (dict_get kwargs "python" _)),
             (truthy (dict_get kwargs "audio" _)); reflexivity.
Qed.

Lemma options_bool (headless python audio : option bool) :
  Forall (fun e => is_bool e.2 = true) (options headless python audio).
Proof.
  destruct headless, python, audio; repeat constructor.
Qed.

(** C4: whichever of the three options the caller passes, and with
    whichever boolean values, the command handed to the shell is
    ["<executable> <audio_flag> <headless_flag> <python_flag>
    <script_path> -- <joined_extra_args>"], with [-b] for headless,
    [-P] for python, [-noaudio] for no audio, and an omitted option
    counting as headless=true, python=true, audio=false; in both
    versions of [run]. *)
Theorem run_command_format (st : state) (script : string)
    (extra : list string) (headless python audio : option bool) :
  let kwargs := options headless python audio in
  let command :=
    spec_command (app st) (default true headless) (default true python)
      (default false audio) (Blender.with_py script) extra in
  spawned (Blender.run (Some script) None (map VStr extra) kwargs st).1
  = spawned st ++ [command]
  /\ spawned (SrcMain.run script (map VStr extra) kwargs st).1
     = spawned st ++ [command].
Proof.
  intros kwargs command. split.
  - subst kwargs command. rewrite run_spawned.
    by destruct headless as [[]|], python as [[]|], audio as [[]|].
  - subst kwargs command.
    rewrite main_run_spawned by apply check_kwargs_bool, options_bool.
    by destruct headless as [[]|], python as [[]|], audio as [[]|].
Qed.

(** The eight combinations, spelled out. *)
Example flags_table (exe script : string) :
  spec_command exe true true false script [] = exe +:+ " -noaudio -b -P " +:+ script +:+ " -- "
  /\ spec_command exe true true true script [] = exe +:+ "  -b -P " +:+ script +:+ " -- "
  /\ spec_command exe true false false script [] = exe +:+ " -noaudio -b  " +:+ script +:+ " -- "
  /\ spec_command exe true false true script [] = exe +:+ "  -b  " +:+ script +:+ " -- "
  /\ spec_command exe false true false script [] = exe +:+ " -noaudio  -P " +:+ script +:+ " -- "
  /\ spec_command exe false true true script [] = exe +:+ "   -P " +:+ script +:+ " -- "
  /\ spec_command exe false false false script [] = exe +:+ " -noaudio   " +:+ script +:+ " -- "
  /\ spec_command exe false false true script [] = exe +:+ "    " +:+ script +:+ " -- ".
Proof. repeat split. Qed.

End CommandBuilder.

Section ScriptArgument.
Context `{Runtime}.

(** C1: the test is [".py" in script], not [script.endswith(".py")].
    ["tools.python/generate"] does not end in [".py"], yet it is left
    without the extension by both versions of [run], and it is this
    token that reaches the shell. *)
Theorem with_py_tests_occurrence_not_suffix :
  endswith "tools.python/generate" ".py" = false
  /\ Blender.with_py "tools.python/generate" = "tools.python/generate"
  /\ SrcMain.with_py "tools.python/generate" = "tools.python/generate"
  /\ Blender.with_py "tools.python/generate"
     <> "tools.python/generate" +:+ ".py"
  /\ forall st : state,
       spawned (Blender.run (Some "tools.python/generate") None [] [] st).1
       = spawned st ++
         [app st +:+ " -noaudio -b -P tools.python/generate -- "].
Proof.
  repeat split; try done.
  intros st. by rewrite (run_spawned st _ None [] []).
Qed.

(** C5, as the code has it: a missing script is refused with a
    [ValueError] before any command is built; an empty script path is
    not refused, it becomes [".py"] and the command is built and handed
    to the shell, in both versions of [run]. *)
Theorem run_refuses_only_missing_script :
  (forall (st : state) (binary : option string) (args : list value)
          (kwargs : list (string * value)),
      (Blender.run None binary args kwargs st).2
      = Raise (ValueError
          "Provide either a local or external (gist) script source.")
      /\ spawned (Blender.run None binary args kwargs st).1 = spawned st)
  /\ (forall (st : state) (extra : list string),
         spawned (Blender.run (Some "") None (map VStr extra) [] st).1
         = spawned st ++ [spec_command (app st) true true false ".py" extra]
         /\ spawned (SrcMain.run "" (map VStr extra) [] st).1
            = spawned st ++
              [spec_command (app st) true true false ".py" extra]).
Proof.
  split.
  - intros st binary args kwargs. unfold_run. by destruct binary.
  - intros st extra. split.
    + by rewrite run_spawned.
    + by rewrite main_run_spawned.
Qed.

Lemma run_calls_app (cs : list call) (st : state) :
  Forall (fun c => call_binary c = None) cs ->
  app (run_calls cs st) = app st.
Proof.
  intros Hcs. revert st.
  induction Hcs as [|c cs Hc _ IH]; intros st; simpl; [done|].
  rewrite IH. unfold run_call. by rewrite run_app, Hc.
Qed.

(** C10: a binary passed to [run] replaces the executable given to the
    constructor, and stays: after any further calls that pass no
    binary, [self.app] is still that binary, and the next call without
    a binary starts its command with it. *)
Theorem run_binary_persists (app0 b : string) (st0 : state)
    (script : option string) (args : list value)
    (kwargs : list (string * value)) (later : list call)
    (script' : string) (extra' : list string)
    (kwargs' : list (string * value)) :
  Forall (fun c => call_binary c = None) later ->
  let st1 :=
    (Blender.run script (Some b) args kwargs (Blender.__init__ app0 st0)).1
  in
  let st2 := run_calls later st1 in
  app st2 = b
  /\ exists rest : string,
       spawned (Blender.run (Some script') None (map VStr extra')
                  kwargs' st2).1
       = spawned st2 ++ [b +:+ " " +:+ rest].
Proof.
  intros Hlater st1 st2.
  assert (Hb : app st2 = b).
  { subst st2 st1. by rewrite run_calls_app, run_app. }
  split; [done|].
  rewrite run_spawned. simpl. rewrite Hb.
  unfold spec_command. simpl. eauto.
Qed.

End ScriptArgument.

(** C5, as stated, at the empty script path: the call returns and a
    command was built. *)
Lemma run_accepts_empty_script :
  (@Blender.run (echo_runtime offline) (Some "") None [] [] fresh_blender).2
  = Ok "blender -noaudio -b -P .py -- "
  /\ spawned (@Blender.run (echo_runtime offline) (Some "") None [] []
                fresh_blender).1
     = ["blender -noaudio -b -P .py -- "].
Proof. split; reflexivity. Qed.

Lemma run_binary_persists_witness :
  let rt := echo_runtime offline in
  let later := [mkCall (Some "a") None [] []; mkCall None None [] []] in
  let st2 :=
    run_calls later
      (Blender.run (Some "first") (Some "/opt/blender/blender") [] []
         (Blender.__init__ "blender" fresh_blender)).1 in
  Forall (fun c => call_binary c = None) later
  /\ app st2 = "/opt/blender/blender"
  /\ exists rest : string,
       spawned (Blender.run (Some "render") None (map VStr ["-a"; "1"])
                  [] st2).1
       = spawned st2 ++ ["/opt/blender/blender" +:+ " " +:+ rest].
Proof.
  intros rt later st2.
  assert (Hlater : Forall (fun c => call_binary c = None) later)
    by (repeat constructor).
  split; [exact Hlater|].
  exact (@run_binary_persists rt "blender" "/opt/blender/blender"
           fresh_blender (Some "first") [] [] later "render" ["-a"; "1"] []
           Hlater).
Defined.

(** ** Validation of arguments and options *)

Section Validation.
Context `{Runtime}.

Lemma check_args_non_str (python_args : list value) :
  Exists (fun v => is_str v = false) python_args ->
  SrcMain.check_args python_args
  = Some "All Python arguments should be a string.".
Proof.
  induction 1 as [v l Hv|v l _ IH]; simpl.
  - by rewrite Hv.
  - by destruct (is_str v).
Qed.

Lemma check_args_all_str (python_args : list value) :
  Forall (fun v => is_str v = true) python_args ->
  SrcMain.check_args python_args = None.
Proof. induction 1 as [|v l Hv _ IH]; simpl; [done|]. by rewrite Hv. Qed.

Lemma check_kwargs_first (pre post : list (string * value))
    (arg : string) (v : value) :
  Forall (fun e => is_bool e.2 = true) pre ->
  is_bool v = false ->
  SrcMain.check_kwargs (pre ++ (arg, v) :: post)
  = Some (arg +:+ "; should be a boolean.").
Proof.
  intros Hpre Hv.
  induction Hpre as [|[k w] pre Hw _ IH]; simpl.
  - by rewrite Hv.
  - simpl in Hw. by rewrite Hw.
Qed.

Lemma message_not_empty (arg : string) :
  String.eqb (arg +:+ "; should be a boolean.") "" = false.
Proof. by destruct arg. Qed.

Lemma dict_get_other (name k : string) (v default : value)
    (kwargs : list (string * value)) :
  name <> k ->
  dict_get ((name, v) :: kwargs) k default = dict_get kwargs k default.
Proof. intros Hne. simpl. by destruct (String.eqb_spec name k). Qed.

(** C6, as the code has it.  In [src/main.py], [run] refuses a
    non-text argument with a [ValueError] whose message is fixed and
    does not name the value; with text arguments it refuses the first
    option whose value is not a boolean, whatever the option's name,
    with a [ValueError] that names it; an option with another name is
    ignored when its value is a boolean.  In [blender.py], [run]
    validates nothing: a non-text argument fails in [str.join] with a
    [TypeError], and option values are used by their truth value. *)
Theorem run_validation (st : state) (script : string) :
  (forall (python_args : list value) (kwargs : list (string * value)),
      Exists (fun v => is_str v = false) python_args ->
      SrcMain.run script python_args kwargs st
      = (st, Raise (ValueError "All Python arguments should be a string.")))
  /\ (forall (python_args : list value) (pre post : list (string * value))
             (arg : string) (v : value),
         Forall (fun v => is_str v = true) python_args ->
         Forall (fun e => is_bool e.2 = true) pre ->
         is_bool v = false ->
         SrcMain.run script python_args (pre ++ (arg, v) :: post) st
         = (st, Raise (ValueError (arg +:+ "; should be a boolean."))))
  /\ (forall (extra : list string) (kwargs : list (string * value))
             (name : string) (b : bool),
         name <> "headless" -> name <> "python" -> name <> "audio" ->
         Forall (fun e => is_bool e.2 = true) kwargs ->
         spawned (SrcMain.run script (map VStr extra)
                    ((name, VBool b) :: kwargs) st).1
         = spawned st ++
           [spec_command (app st) (headless_of kwargs) (python_of kwargs)
              (audio_of kwargs) (SrcMain.with_py script) extra])
  /\ (forall (args : list value) (kwargs : list (string * value)),
         Exists (fun v => is_str v = false) args ->
         Blender.run (Some script) None args kwargs st
         = (st, Raise TypeError))
  /\ (forall (extra : list string) (kwargs : list (string * value)),
         spawned (Blender.run (Some script) None (map VStr extra)
                    kwargs st).1
         = spawned st ++
           [spec_command (app st) (headless_of kwargs) (python_of kwargs)
              (audio_of kwargs) (Blender.with_py script) extra]).
Proof.
  repeat apply conj.
  - intros python_args kwargs Hbad.
    unfold SrcMain.run, SrcMain._dry_run.
    by rewrite (check_args_non_str _ Hbad).
  - intros python_args pre post arg v Hargs Hpre Hv.
    unfold SrcMain.run, SrcMain._dry_run.
    rewrite (check_args_all_str _ Hargs), (check_kwargs_first _ _ _ _ Hpre Hv).
    by rewrite message_not_empty.
  - intros extra kwargs name b Hh Hp Ha Hk.
    rewrite main_run_spawned.
    + unfold headless_of, python_of, audio_of.
      by rewrite !dict_get_other.
    + simpl. by apply check_kwargs_bool.
  - intros args kwargs Hbad. unfold_run. unfold py_join.
    by rewrite (all_str_non_str _ Hbad).
  - intros extra kwargs. by rewrite run_spawned.
Qed.

End Validation.

(** C6, as stated, at an option the builder does not know: it is
    refused, not ignored. *)
Lemma run_refuses_unknown_option :
  @SrcMain.run (echo_runtime offline) "render" [] [("verbose", VNum 1)]
    fresh_blender
  = (fresh_blender, Raise (ValueError "verbose; should be a boolean.")).
Proof. reflexivity. Qed.

Lemma run_validation_witness :
  let rt := echo_runtime offline in
  SrcMain.run "render" [VStr "-a"; VNum 1] [("audio", VBool true)]
    fresh_blender
  = (fresh_blender,
     Raise (ValueError "All Python arguments should be a string."))
  /\ SrcMain.run "render" [VStr "-a"]
       ([("audio", VBool true)] ++ ("headless", VStr "no") :: [])
       fresh_blender
     = (fresh_blender, Raise (ValueError "headless; should be a boolean."))
  /\ spawned (SrcMain.run "render" (map VStr ["-a"])
                (("verbose", VBool true) :: [("audio", VBool true)])
                fresh_blender).1
     = ["blender  -b -P render.py -- -a"]
  /\ Blender.run (Some "render") None [VStr "-a"; VNum 1] [] fresh_blender
     = (fresh_blender, Raise TypeError).
Proof.
  intros rt.
  destruct (@run_validation rt fresh_blender "render")
    as (Hargs & Hopt & Hignored & Hjoin & _).
  repeat apply conj.
  - apply Hargs. right. by left.
  - apply Hopt; [by repeat constructor..|done].
  - apply (Hignored ["-a"] [("audio", VBool true)] "verbose" true);
      [done..|by repeat constructor].
  - apply Hjoin. right. by left.
Defined.

(** ** Descending into the gist *)

Section Extract.
Import Blender.

(** With a single key the result is [data.get(key)]. *)
Lemma extract_single (d : list (string * value)) (k : string) :
  extract_dict_value (VDict d) (Single k) = Ok (dict_get d k VNone).
Proof. reflexivity. Qed.

(** With a list of keys the call descends by the first key. *)
Lemma extract_descend (d : list (string * value)) (k : string)
    (ks : list string) :
  extract_dict_value (VDict d) (Many (k :: ks))
  = extract_dict_value (dict_get d k VNone) (Many ks).
Proof. reflexivity. Qed.

(** A [None] on the way ends the descent with [None]. *)
Lemma extract_none (keys : keys) : extract_dict_value VNone keys = Ok VNone.
Proof. by destruct keys as [k|[|k ks]]. Qed.

(** There is no case for the exhausted key list: the descent ends in
    [None] or in an exception, never in a value it found. *)
Lemma extract_many_finds_nothing (ks : list string) (data : value) :
  extract_many data ks = Ok VNone \/ exists e, extract_many data ks = Raise e.
Proof.
  revert data. induction ks as [|k ks IH]; intros data.
  - destruct data; simpl; eauto.
  - destruct data; simpl; eauto.
Qed.

(** C2: descending with the key list [f1, content] into
    [{"f1": {"content": "hello"}}] reaches ["hello"] with the key list
    used up and asks it for [get], which raises; the other two sample
    calls give [None]; and no call with a key list returns anything
    but [None]. *)
Theorem extract_dict_value_key_list :
  extract_dict_value (VDict [("f1", VDict [("content", VStr "hello")])])
    (Many ["f1"; "content"])
  = Raise AttributeError
  /\ extract_dict_value (VDict [("f1", VDict [])]) (Many ["f1"; "content"])
     = Ok VNone
  /\ extract_dict_value (VDict []) (Single "missing") = Ok VNone
  /\ forall (data : value) (ks : list string),
       extract_dict_value data (Many ks) = Ok VNone
       \/ exists e, extract_dict_value data (Many ks) = Raise e.
Proof.
  repeat split. intros data ks. apply extract_many_finds_nothing.
Qed.

End Extract.

(** ** Running a gist *)

Section RunGist.
Context `{Runtime}.

Lemma append_cons_neq (s : string) (c : ascii) (t : string) :
  s +:+ String c t <> s.
Proof.
  induction s as [|a s IH]; simpl; [done|].
  intros Heq. injection Heq as Heq. by apply IH.
Qed.

Lemma scratch_file_neq (temp gid : string) : temp +:+ "/" +:+ gid <> temp.
Proof. apply append_cons_neq. Qed.

Lemma rmtree_under (temp p : string) (fs : gmap string node) :
  under temp p = true -> rmtree temp fs !! p = None.
Proof.
  intros Hp. unfold rmtree. apply map_lookup_filter_None. right.
  intros x _. simpl. by rewrite Hp.
Qed.

Lemma rmtree_outside (temp p : string) (fs : gmap string node) :
  under temp p = false -> rmtree temp fs !! p = fs !! p.
Proof.
  intros Hp. unfold rmtree. destruct (fs !! p) as [x|] eqn:Hx.
  - by apply map_lookup_filter_Some.
  - apply map_lookup_filter_None. by left.
Qed.

Lemma run_plain (script : string) (st : state) :
  Blender.run (Some script) None [] [] st
  = Blender.terminal
      (spec_command (app st) true true false (Blender.with_py script) []) st.
Proof. reflexivity. Qed.

(** C9, as the code has it: [run_gist] passes its keyword arguments on
    to [TemporaryDirectory].  When they leave [delete] true, then on
    every way out of [run_gist] the scratch directory and every path
    beneath it are gone: when the fetch, the lookup, [open] or
    [writelines] raised, which leaves the state as if the directory had
    been made and removed, and when [run] was reached, whatever the
    child process did and returned. *)
Theorem run_gist_removes_scratch (gid : string) (content : option keys)
    (kwargs : list (string * value)) (temp : string) (st : state) :
  tempdir_accepts kwargs = true ->
  tempdir_delete kwargs = true ->
  files st !! temp = None ->
  let out := Blender.run_gist gid content kwargs (Ok temp) st in
  let fp := temp +:+ "/" +:+ gid in
  let cmd := spec_command (app st) true true false (Blender.with_py fp) [] in
  (forall p, under temp p = true -> files out.1 !! p = None)
  /\ ((out.1 = swept temp st
       /\ exists e, out.2 = Raise e
          /\ (urlopen ("https://api.github.com/gists/" +:+ gid) = Raise e
              \/ exists gist,
                   urlopen ("https://api.github.com/gists/" +:+ gid) = Ok gist
                   /\ (Blender.gist_text gist content = Raise e
                       \/ Blender.gist_text gist content = Ok VNone)))
      \/ (out.1 = swept temp st
          /\ exists gist text e,
               urlopen ("https://api.github.com/gists/" +:+ gid) = Ok gist
               /\ Blender.gist_text gist content = Ok text
               /\ text <> VNone
               /\ out.2 = Raise e)
      \/ (spawned out.1 = spawned st ++ [cmd]
          /\ app out.1 = app st
          /\ out.2 = (popen cmd (<[temp := Dir]> (files st))).2
          /\ forall p, under temp p = false ->
               files out.1 !! p
               = (popen cmd (<[temp := Dir]> (files st))).1 !! p)).
Proof.
  intros Hacc Hdel Hfresh out fp cmd. subst out fp.
  unfold Blender.run_gist, TemporaryDirectory.
  rewrite Hacc, Hfresh, Hdel. simpl negb. cbv iota.
  unfold Blender.gist_block, Blender.get_gist, bind, lift.
  destruct (urlopen _) as [gist|e] eqn:Hget; simpl.
  2:{ split; [by intros p Hp; apply rmtree_under|]. left. split; [done|].
      exists e. split; [done|]. by left. }
  destruct (Blender.gist_text gist content) as [text|e] eqn:Htext; simpl.
  2:{ split; [by intros p Hp; apply rmtree_under|]. left. split; [done|].
      exists e. split; [done|]. right. exists gist. split; [done|by left]. }
  destruct (is_none text) eqn:Hnone; simpl.
  { split; [by intros p Hp; apply rmtree_under|]. left. split; [done|].
    eexists. split; [done|]. right. exists gist. split; [done|].
    right. by destruct text. }
  assert (Htext' : text <> VNone) by (by intros ->).
  unfold open_r. simpl.
  destruct (<[temp:=Dir]> (files st) !! _) as [[|c]|] eqn:Hfp; simpl.
  1,3: split; [by intros p Hp; apply rmtree_under|]; right; left;
       split; [done|]; exists gist, text; eexists; done.
  destruct (writelines_r text) as [[]|e] eqn:Hw; simpl.
  2:{ split; [by intros p Hp; apply rmtree_under|]. right. left.
      split; [done|]. by exists gist, text, e. }
  rewrite run_plain. unfold Blender.terminal. simpl. fold cmd.
  destruct (popen cmd _) as [fs r]. simpl.
  split; [by intros p Hp; apply rmtree_under|]. right. right.
  repeat split; try done. intros p Hp. by apply rmtree_outside.
Qed.


(** C3: the file is opened with mode ["r"].  In the new scratch
    directory it does not exist, so once a text has been found
    [run_gist] stops at [open] with [FileNotFoundError]: nothing is
    written and [run] is not reached; whichever keyword arguments went
    to [TemporaryDirectory]. *)
Theorem run_gist_opens_for_reading (gid : string) (content : option keys)
    (kwargs : list (string * value)) (temp : string) (st : state)
    (gist text : value) :
  tempdir_accepts kwargs = true ->
  files st !! temp = None ->
  files st !! (temp +:+ "/" +:+ gid) = None ->
  urlopen ("https://api.github.com/gists/" +:+ gid) = Ok gist ->
  Blender.gist_text gist content = Ok text ->
  is_none text = false ->
  Blender.run_gist gid content kwargs (Ok temp) st
  = (left_after kwargs temp st, Raise FileNotFoundError)
  /\ spawned (left_after kwargs temp st) = spawned st
  /\ files (left_after kwargs temp st) !! (temp +:+ "/" +:+ gid) = None
  /\ (tempdir_delete kwargs = true ->
      left_after kwargs temp st = swept temp st
      /\ forall p, under temp p = true -> files (swept temp st) !! p = None).
Proof.
  intros Hacc Hfresh Hfile Hget Htext Hsome.
  repeat apply conj.
  - unfold Blender.run_gist, TemporaryDirectory.
    rewrite Hacc, Hfresh. simpl negb. cbv iota.
    unfold Blender.gist_block, Blender.get_gist, bind, lift at 1.
    rewrite Hget. unfold lift. rewrite Htext, Hsome. unfold open_r. simpl.
    rewrite lookup_insert_ne by (symmetry; apply scratch_file_neq).
    rewrite Hfile. unfold left_after. by destruct (tempdir_delete kwargs).
  - unfold left_after. by destruct (tempdir_delete kwargs).
  - unfold left_after. destruct (tempdir_delete kwargs); simpl.
    + unfold rmtree. apply map_lookup_filter_None. left.
      by rewrite lookup_insert_ne by (symmetry; apply scratch_file_neq).
    + by rewrite lookup_insert_ne by (symmetry; apply scratch_file_neq).
  - intros Hdel. unfold left_after. rewrite Hdel. split; [done|].
    intros p Hp. by apply rmtree_under.
Qed.

End RunGist.

(** ** Sample runs *)

(** C9, as stated, at a call that passes [delete=False]: the call ends,
    here with the exception from [open], and the scratch directory is
    still there. *)
Lemma run_gist_keeps_scratch_on_request :
  let rt := echo_runtime (Ok (VDict [("code", VStr "print(1)")])) in
  let out := Blender.run_gist "abc123" (Some (Single "code"))
               [("delete", VBool false)] (Ok "/tmp/tmpq1") fresh_blender in
  files fresh_blender !! "/tmp/tmpq1" = None
  /\ out.2 = Raise FileNotFoundError
  /\ files out.1 !! "/tmp/tmpq1" = Some Dir.
Proof. intros rt out. repeat split. Qed.

Lemma run_gist_removes_scratch_witness :
  let rt := echo_runtime (Ok (VDict [("code", VStr "print(1)")])) in
  let st := set_files {["/home/u/scene.blend" := File "BLENDER"]}
              fresh_blender in
  let out := Blender.run_gist "abc123" (Some (Single "code"))
               [("prefix", VStr "tmp"); ("delete", VBool true)]
               (Ok "/tmp/tmpq1") st in
  files st !! "/tmp/tmpq1" = None
  /\ files out.1 !! "/tmp/tmpq1" = None
  /\ files out.1 !! "/tmp/tmpq1/abc123" = None
  /\ files (kept "/tmp/tmpq1" st) !! "/tmp/tmpq1" = Some Dir.
Proof.
  intros rt st out.
  assert (Hfresh : files st !! "/tmp/tmpq1" = None) by reflexivity.
  destruct (@run_gist_removes_scratch rt "abc123" (Some (Single "code"))
              [("prefix", VStr "tmp"); ("delete", VBool true)]
              "/tmp/tmpq1" st eq_refl eq_refl Hfresh) as [Hgone _].
  split; [exact Hfresh|]. split; [|split].
  - apply Hgone. reflexivity.
  - apply Hgone. reflexivity.
  - reflexivity.
Defined.


Lemma run_gist_opens_for_reading_witness :
  let rt := echo_runtime (Ok (VDict [("code", VStr "print(1)")])) in
  Blender.gist_text (VDict [("code", VStr "print(1)")]) (Some (Single "code"))
  = Ok (VStr "print(1)")
  /\ (Blender.run_gist "abc123" (Some (Single "code")) [] (Ok "/tmp/tmpq1")
        fresh_blender).2 = Raise FileNotFoundError
  /\ spawned (Blender.run_gist "abc123" (Some (Single "code")) []
                (Ok "/tmp/tmpq1") fresh_blender).1 = [].
Proof.
  intros rt. split; [reflexivity|].
  destruct (@run_gist_opens_for_reading rt "abc123" (Some (Single "code")) []
              "/tmp/tmpq1" fresh_blender (VDict [("code", VStr "print(1)")])
              (VStr "print(1)"))
    as (Hrun & Hspawned & _); try reflexivity.
  rewrite Hrun. split; [reflexivity|exact Hspawned].
Defined.

(** * Further properties of the code *)

(** ** Occurrence of a substring *)

Section Occurrence.

Lemma append_assoc (a b c : string) : (a +:+ b) +:+ c = a +:+ b +:+ c.
Proof.
  induction a as [|x a IH]; [done|].
  change (String x ((a +:+ b) +:+ c) = String x (a +:+ b +:+ c)).
  by rewrite IH.
Qed.

Lemma prefix_spec (p s : string) :
  String.prefix p s = true <-> exists b, s = p +:+ b.
Proof.
  revert p. induction s as [|y s IH]; intros p.
  - destruct p as [|x p]; simpl.
    + split; [by exists ""|done].
    + split; [done|]. by intros [b Hb].
  - destruct p as [|x p]; simpl.
    + split; [by exists (String y s)|done].
    + destruct (ascii_dec x y) as [->|Hne].
      * rewrite IH. split.
        -- intros [b ->]. by exists b.
        -- intros [b Hb]. injection Hb as ->. by exists b.
      * split; [done|]. intros [b Hb]. by injection Hb as ->.
Qed.

Lemma str_in_spec (p s : string) :
  str_in p s = true <-> exists a b, s = a +:+ p +:+ b.
Proof.
  split.
  - induction s as [|y s IH].
    + destruct p as [|x p]; [by exists "", ""|done].
    + rewrite str_in_cons. destruct (String.prefix p _) eqn:E.
      * apply prefix_spec in E as [b Hb]. by exists "", b.
      * intros (a & b & ->)%IH. by exists (String y a), b.
  - intros (a & b & ->). induction a as [|y a IH].
    + change ("" +:+ p +:+ b) with (p +:+ b).
      assert (E : String.prefix p (p +:+ b) = true)
        by (apply prefix_spec; eauto).
      destruct (p +:+ b); simpl; simpl in E; by rewrite E.
    + change (String y a +:+ p +:+ b) with (String y (a +:+ p +:+ b)).
      rewrite str_in_cons, IH. by destruct (String.prefix _ _).
Qed.

(** X1: both versions of [run] leave the script path as it is exactly
    when [".py"] occurs somewhere in it, at the end or not; every other
    path gets [".py"] appended. *)
Theorem with_py_unchanged_iff (script : string) :
  (Blender.with_py script = script
   <-> exists a b, script = a +:+ ".py" +:+ b)
  /\ (Blender.with_py script = script +:+ ".py"
      <-> ~ exists a b, script = a +:+ ".py" +:+ b)
  /\ SrcMain.with_py script = Blender.with_py script.
Proof.
  rewrite <- str_in_spec. unfold SrcMain.with_py, Blender.with_py.
  destruct (str_in ".py" script) eqn:E; simpl; repeat split; try done.
  - intros Heq. symmetry in Heq. by apply append_cons_neq in Heq.
  - intros Heq. by apply append_cons_neq in Heq.
Qed.

(** X2: the script token always contains [".py"], always starts with the
    path it was made from, and making a token from a token changes
    nothing. *)
Theorem with_py_token (script : string) :
  str_in ".py" (Blender.with_py script) = true
  /\ String.prefix script (Blender.with_py script) = true
  /\ Blender.with_py (Blender.with_py script) = Blender.with_py script.
Proof.
  split; [|split].
  - unfold Blender.with_py. destruct (str_in ".py" script) eqn:E; simpl.
    + done.
    + apply str_in_app.
  - unfold Blender.with_py. destruct (str_in ".py" script); simpl.
    + apply prefix_refl.
    + apply prefix_spec. eauto.
  - apply with_py_idempotent.
Qed.

End Occurrence.

(** ** What [run] does to the instance, the files and the shell *)

Section Outcome.
Context `{Runtime}.

Lemma all_str_ok (l : list value) (ss : list string) :
  all_str l = Ok ss -> l = map VStr ss.
Proof.
  revert ss. induction l as [|v l IH]; intros ss; simpl.
  - by intros [= <-].
  - destruct v; try done. destruct (all_str l) as [ss'|e]; [|done].
    intros [= <-]. simpl. by rewrite (IH ss').
Qed.

Lemma all_str_raise (l : list value) (e : exn) :
  all_str l = Raise e ->
  e = TypeError /\ Exists (fun v => is_str v = false) l.
Proof.
  induction l as [|v l IH]; simpl; [done|].
  destruct v; try (intros [= <-]; split; [done|by left]).
  destruct (all_str l) as [ss|e']; [done|].
  intros [= ->]. destruct IH as [-> Hl]; [done|]. split; [done|by right].
Qed.

Lemma is_str_map (ss : list string) :
  Forall (fun v => is_str v = true) (map VStr ss).
Proof. induction ss; by constructor. Qed.

Lemma check_args_passes (python_args : list value) :
  SrcMain.check_args python_args = None ->
  Forall (fun v => is_str v = true) python_args.
Proof.
  induction python_args as [|v l IH]; simpl; [done|].
  destruct (is_str v) eqn:Hv; simpl; [|done].
  intros Hl. constructor; [done|by apply IH].
Qed.

Lemma check_kwargs_passes (kwargs : list (string * value)) :
  SrcMain.check_kwargs kwargs = None ->
  Forall (fun e => is_bool e.2 = true) kwargs.
Proof.
  induction kwargs as [|[k v] l IH]; simpl; [done|].
  destruct (is_bool v) eqn:Hv; simpl; [|done].
  intros Hl. constructor; [done|by apply IH].
Qed.

Lemma check_args_message (python_args : list value) (msg : string) :
  SrcMain.check_args python_args = Some msg ->
  msg = "All Python arguments should be a string.".
Proof.
  induction python_args as [|v l IH]; simpl; [done|].
  destruct (is_str v); simpl; [done|]. by intros [= <-].
Qed.

Lemma check_kwargs_message (kwargs : list (string * value)) (msg : string) :
  SrcMain.check_kwargs kwargs = Some msg ->
  exists arg, msg = arg +:+ "; should be a boolean.".
Proof.
  induction kwargs as [|[k v] l IH]; simpl; [done|].
  destruct (is_bool v); simpl; [done|]. intros [= <-]. eauto.
Qed.

Lemma dry_run_empty (python_args : list value)
    (kwargs : list (string * value)) :
  SrcMain._dry_run python_args kwargs = "" ->
  SrcMain.check_args python_args = None
  /\ SrcMain.check_kwargs kwargs = None.
Proof.
  unfold SrcMain._dry_run.
  destruct (SrcMain.check_args python_args) as [msg|] eqn:Ha.
  { apply check_args_message in Ha as ->. done. }
  destruct (SrcMain.check_kwargs kwargs) as [msg|] eqn:Hk; [|done].
  apply check_kwargs_message in Hk as [arg ->].
  intros Hmsg. by destruct arg.
Qed.

(** X3: [_dry_run] answers the empty string, which lets [run] go on,
    exactly when every argument is a string and every keyword argument,
    whatever its name, is a boolean. *)
Theorem dry_run_passes_iff (python_args : list value)
    (kwargs : list (string * value)) :
  SrcMain._dry_run python_args kwargs = "" <->
  Forall (fun v => is_str v = true) python_args
  /\ Forall (fun e => is_bool e.2 = true) kwargs.
Proof.
  split.
  - intros [Ha Hk]%dry_run_empty.
    split; [by apply check_args_passes|by apply check_kwargs_passes].
  - intros [Ha Hk]. unfold SrcMain._dry_run.
    by rewrite (check_args_all_str _ Ha), (check_kwargs_bool _ Hk).
Qed.

(** X4: [run] of [src/main.py] has two outcomes only.  When [_dry_run]
    has a message, it raises [ValueError] with that message and nothing
    has changed; otherwise it hands one command to the shell, returns
    what the child process gives, and leaves [self.app] alone. *)
Theorem main_run_outcome (st : state) (script : string)
    (python_args : list value) (kwargs : list (string * value)) :
  let out := SrcMain.run script python_args kwargs st in
  (SrcMain._dry_run python_args kwargs <> ""
   /\ out = (st, Raise (ValueError (SrcMain._dry_run python_args kwargs))))
  \/ (SrcMain._dry_run python_args kwargs = ""
      /\ app out.1 = app st
      /\ exists cmd,
           spawned out.1 = spawned st ++ [cmd]
           /\ (files out.1, out.2) = popen cmd (files st)).
Proof.
  intros out. subst out. unfold SrcMain.run.
  destruct (String.eqb_spec (SrcMain._dry_run python_args kwargs) "")
    as [Hpass|Hfail]; simpl.
  - right. split; [done|].
    apply dry_run_empty in Hpass as [Ha%check_args_passes _].
    unfold bind, lift, py_join.
    destruct (all_str python_args) as [ss|e] eqn:Hs.
    + unfold get_app, SrcMain.call. simpl.
      destruct (popen _ (files st)) as [fs r] eqn:Hp. simpl.
      split; [done|]. eexists. split; [done|]. by rewrite Hp.
    + apply all_str_raise in Hs as [_ Hbad].
      apply Exists_exists in Hbad as (v & Hv & Hfalse).
      rewrite Forall_forall in Ha. by rewrite (Ha v Hv) in Hfalse.
  - left. by split.
Qed.

(** X5: [run] of [blender.py] always leaves in [self.app] the binary it
    was given, or the old one.  Without a script, or with an argument
    that is not a string, it raises and neither the files nor the
    shell history have changed; otherwise it hands exactly one command
    to the shell and returns what the child process gives. *)
Theorem run_outcome (st : state) (script binary : option string)
    (args : list value) (kwargs : list (string * value)) :
  let out := Blender.run script binary args kwargs st in
  app out.1 = default (app st) binary
  /\ (((script = None \/ Exists (fun v => is_str v = false) args)
       /\ spawned out.1 = spawned st
       /\ files out.1 = files st
       /\ exists e, out.2 = Raise e)
      \/ (is_Some script
          /\ Forall (fun v => is_str v = true) args
          /\ exists cmd,
               spawned out.1 = spawned st ++ [cmd]
               /\ (files out.1, out.2) = popen cmd (files st))).
Proof.
  intros out. subst out. split; [apply run_app|].
  destruct script as [script|].
  - unfold Blender.run, bind, lift, py_join.
    destruct (all_str args) as [ss|e] eqn:Hs.
    + right. split; [done|]. apply all_str_ok in Hs as ->.
      split; [apply is_str_map|].
      unfold get_app, Blender.terminal.
      destruct binary; simpl;
        destruct (popen _ (files st)) as [fs r] eqn:Hp; simpl;
        eexists; (split; [done|]); by rewrite Hp.
    + left. apply all_str_raise in Hs as [-> Hbad].
      split; [by right|]. destruct binary; simpl; eauto.
  - left. split; [by left|]. unfold_run. destruct binary; simpl; eauto.
Qed.

End Outcome.

(** ** The two versions of [run], and arguments with spaces *)

Section Versions.
Context `{Runtime}.

Lemma join_merge (sep x y : string) (rest : list string) :
  join sep (x :: y :: rest) = join sep ((x +:+ sep +:+ y) :: rest).
Proof.
  destruct rest as [|z rest]; [done|].
  change (x +:+ sep +:+ y +:+ sep +:+ join sep (z :: rest)
          = (x +:+ sep +:+ y) +:+ sep +:+ join sep (z :: rest)).
  by rewrite !append_assoc.
Qed.

(** X6: on text arguments and boolean keyword arguments, [run] of
    [src/main.py] and [run] of [blender.py] without a binary do the
    same: same final state, same result. *)
Theorem run_versions_agree (st : state) (script : string)
    (extra : list string) (kwargs : list (string * value)) :
  Forall (fun e => is_bool e.2 = true) kwargs ->
  SrcMain.run script (map VStr extra) kwargs st
  = Blender.run (Some script) None (map VStr extra) kwargs st.
Proof.
  intros Hk. unfold SrcMain.run, SrcMain._dry_run.
  by rewrite check_args_map, (check_kwargs_bool _ Hk).
Qed.

(** X7: the arguments are joined with spaces and not quoted: two
    arguments [x] and [y] and the one argument ["x y"] lead to the same
    call, so an argument with a space in it cannot reach the script as
    one token. *)
Theorem run_does_not_quote (st : state) (script : string)
    (binary : option string) (x y : string) (rest : list string)
    (kwargs : list (string * value)) :
  Blender.run (Some script) binary (map VStr (x :: y :: rest)) kwargs st
  = Blender.run (Some script) binary
      (map VStr ((x +:+ " " +:+ y) :: rest)) kwargs st
  /\ (SrcMain._dry_run (map VStr (x :: y :: rest)) kwargs
      = SrcMain._dry_run (map VStr ((x +:+ " " +:+ y) :: rest)) kwargs
      /\ SrcMain.run script (map VStr (x :: y :: rest)) kwargs st
         = SrcMain.run script (map VStr ((x +:+ " " +:+ y) :: rest))
             kwargs st).
Proof.
  split; [|split].
  - unfold Blender.run, bind, lift.
    by rewrite !py_join_map, join_merge.
  - unfold SrcMain._dry_run. by rewrite !check_args_map.
  - unfold SrcMain.run, SrcMain._dry_run, bind, lift.
    by rewrite !check_args_map, !py_join_map, join_merge.
Qed.

End Versions.

Lemma run_versions_agree_witness :
  let rt := echo_runtime offline in
  Forall (fun e => is_bool e.2 = true) [("audio", VBool true)]
  /\ SrcMain.run "render" (map VStr ["-a"; "1"]) [("audio", VBool true)]
       fresh_blender
     = Blender.run (Some "render") None (map VStr ["-a"; "1"])
         [("audio", VBool true)] fresh_blender.
Proof.
  intros rt.
  assert (Hk : Forall (fun e => is_bool e.2 = true) [("audio", VBool true)])
    by (by repeat constructor).
  split; [exact Hk|].
  exact (@run_versions_agree rt fresh_blender "render" ["-a"; "1"]
           [("audio", VBool true)] Hk).
Defined.

(** ** The argument splitter, on any [argv] *)

Section SplitterTotal.
Import BlenderParser.

Lemma index_bound (argv : list string) (x : string) (i : nat) :
  index argv x = Ok i -> i < length argv /\ x ∈ argv.
Proof.
  revert i. induction argv as [|a argv IH]; intros i; simpl; [done|].
  destruct (String.eqb_spec a x) as [->|_].
  - intros [= <-]. split; [lia|by left].
  - destruct (index argv x) as [j|e]; [|done].
    intros [= <-]. destruct (IH j eq_refl). split; [lia|by right].
Qed.

Lemma index_raises (argv : list string) (x : string) (e : exn) :
  index argv x = Raise e -> exists msg, e = ValueError msg.
Proof.
  induction argv as [|a argv IH]; simpl.
  - intros [= <-]. eauto.
  - destruct (String.eqb a x); [done|].
    destruct (index argv x) as [j|e']; [done|].
    intros [= ->]. by apply IH.
Qed.

(** X8: [_get_argv_after_doubledash] never raises.  What it returns is
    a tail of [argv], and it is empty or comes from an [argv] that holds
    ["--"], in which case it is shorter than [argv]. *)
Theorem split_after_separator_total (argv : list string) :
  exists rest,
    _get_argv_after_doubledash argv = Ok rest
    /\ rest `suffix_of` argv
    /\ (rest = [] \/ ("--" ∈ argv /\ length rest < length argv)).
Proof.
  unfold _get_argv_after_doubledash.
  destruct (index argv "--") as [i|e] eqn:Hi.
  - exists (drop (i + 1) argv). split; [done|]. split; [apply suffix_drop|].
    right. apply index_bound in Hi as [Hlt Hin]. split; [done|].
    rewrite length_drop. lia.
  - exists []. apply index_raises in Hi as [msg ->].
    split; [done|]. split; [apply suffix_nil|by left].
Qed.

End SplitterTotal.

(** ** Key lists that lead somewhere *)

Section KeyPaths.
Import Blender.

Lemma extract_many_end (v : value) :
  v <> VNone -> exists e, extract_many v [] = Raise e.
Proof. destruct v; simpl; eauto. done. Qed.

(** X9: when the keys of a key list can all be followed and lead to a
    value other than [None], [extract_dict_value] raises instead of
    returning it; and when it returns, which is always [None], some
    initial part of the key list led to a missing key or a [None]. *)
Theorem extract_key_list_reaches (data : value) (ks : list string) :
  (forall v, reaches data ks v -> v <> VNone ->
             exists e, extract_dict_value data (Many ks) = Raise e)
  /\ (forall v, extract_dict_value data (Many ks) = Ok v ->
                v = VNone
                /\ exists ks1 ks2, ks = ks1 ++ ks2 /\ reaches data ks1 VNone).
Proof.
  split.
  - intros v Hreach Hv. simpl.
    induction Hreach as [data|d k ks v _ IH].
    + by apply extract_many_end.
    + simpl. by apply IH.
  - simpl. revert data. induction ks as [|k ks IH]; intros data v.
    + destruct data; simpl; try done.
      intros [= <-]. split; [done|]. exists [], []. split; [done|constructor].
    + destruct data; simpl; try done.
      * intros [= <-]. split; [done|].
        exists [], (k :: ks). split; [done|constructor].
      * intros (-> & ks1 & ks2 & -> & Hreach)%IH. split; [done|].
        exists (k :: ks1), ks2. split; [done|by constructor].
Qed.

End KeyPaths.

Lemma extract_key_list_reaches_witness :
  let doc := VDict [("f1", VDict [("content", VStr "hello")])] in
  reaches doc ["f1"; "content"] (VStr "hello")
  /\ (exists e,
         Blender.extract_dict_value doc (Many ["f1"; "content"]) = Raise e)
  /\ Blender.extract_dict_value doc (Many ["f2"; "content"]) = Ok VNone
  /\ exists ks1 ks2,
       ["f2"; "content"] = ks1 ++ ks2 /\ reaches doc ks1 VNone.
Proof.
  intros doc.
  assert (Hreach : reaches doc ["f1"; "content"] (VStr "hello")).
  { apply reaches_step. simpl. apply reaches_step. simpl.
    apply reaches_here. }
  split; [exact Hreach|]. split.
  - exact (proj1 (extract_key_list_reaches doc ["f1"; "content"])
             (VStr "hello") Hreach ltac:(discriminate)).
  - split; [reflexivity|].
    exact (proj2 (proj2 (extract_key_list_reaches doc ["f2"; "content"])
                    VNone eq_refl)).
Defined.

(** ** [run_gist] in a clean file system *)

Section GistNeverRuns.
Context `{Runtime}.

Lemma under_self (temp : string) : under temp temp = true.
Proof. unfold under. by rewrite String.eqb_refl. Qed.

Lemma under_scratch_file (temp gid : string) :
  under temp (temp +:+ "/" +:+ gid) = true.
Proof.
  unfold under. apply orb_true_iff. right.
  apply prefix_spec. exists gid. by rewrite append_assoc.
Qed.

Lemma swept_clean (temp : string) (st : state) :
  (forall p, under temp p = true -> files st !! p = None) ->
  swept temp st = st.
Proof.
  intros Hclean. destruct st as [a fs sp]. unfold swept, set_files. simpl.
  simpl in Hclean. f_equal. apply map_eq. intros p. unfold rmtree.
  destruct (under temp p) eqn:Hp.
  - rewrite (Hclean p Hp). apply map_lookup_filter_None. right.
    intros x _. simpl. by rewrite Hp.
  - assert (Hne : temp <> p).
    { intros <-. by rewrite under_self in Hp. }
    destruct (fs !! p) as [x|] eqn:Hx.
    + apply map_lookup_filter_Some. split; [|done].
      by rewrite lookup_insert_ne.
    + apply map_lookup_filter_None. left. by rewrite lookup_insert_ne.
Qed.

(** X10: for a gist id that is a plain file name, and a file system
    with nothing at the scratch directory's name or beneath it,
    [run_gist] never returns a result and hands nothing to the shell.
    It raises the [TypeError] of a keyword [TemporaryDirectory] does
    not have, or the exception of [mkdtemp], of the fetch or of the
    lookup in the gist, or the [ValueError] for content that is not
    there, or else [FileNotFoundError] from [open]; and the state is as
    before, but for the empty scratch directory when [delete] was
    passed as false. *)
Theorem run_gist_never_runs (gid : string) (content : option keys)
    (kwargs : list (string * value)) (made : res string) (st : state) :
  plain_name gid = true ->
  (forall temp p, made = Ok temp -> under temp p = true ->
                  files st !! p = None) ->
  Blender.run_gist gid content kwargs made st
  = if negb (tempdir_accepts kwargs) then (st, Raise TypeError)
    else
      match made with
      | Raise e => (st, Raise e)
      | Ok temp =>
          (if tempdir_delete kwargs then st else kept temp st,
           Raise
             match urlopen ("https://api.github.com/gists/" +:+ gid) with
             | Raise e => e
             | Ok gist =>
                 match Blender.gist_text gist content with
                 | Raise e => e
                 | Ok text =>
                     if is_none text
                     then ValueError
                            ("Could not find any content under "
                             +:+ Blender.format_content content +:+ ".")
                     else FileNotFoundError
                 end
             end)
      end.
Proof.
  intros _ Hclean. unfold Blender.run_gist, TemporaryDirectory.
  destruct (negb (tempdir_accepts kwargs)); [done|].
  destruct made as [temp|e]; [|done].
  specialize (Hclean temp).
  pose proof (Hclean temp eq_refl (under_self temp)) as Hfresh.
  pose proof (Hclean _ eq_refl (under_scratch_file temp gid)) as Hfile.
  assert (Hswept : swept temp st = st).
  { apply swept_clean. intros p Hp. by apply Hclean. }
  rewrite Hfresh.
  assert (Hblock : exists e,
             Blender.gist_block gid content temp (kept temp st)
             = (kept temp st, Raise e)
             /\ e = match urlopen ("https://api.github.com/gists/" +:+ gid)
                    with
                    | Raise e => e
                    | Ok gist =>
                        match Blender.gist_text gist content with
                        | Raise e => e
                        | Ok text =>
                            if is_none text
                            then ValueError
                                   ("Could not find any content under "
                                    +:+ Blender.format_content content
                                    +:+ ".")
                            else FileNotFoundError
                        end
                    end).
  { unfold Blender.gist_block, Blender.get_gist, bind, lift.
    destruct (urlopen _) as [gist|e]; [|by eexists].
    destruct (Blender.gist_text gist content) as [text|e]; [|by eexists].
    destruct (is_none text); [by eexists|].
    unfold open_r. simpl.
    rewrite lookup_insert_ne by (symmetry; apply scratch_file_neq).
    rewrite Hfile. by eexists. }
  destruct Hblock as (e & Hblock & <-). fold (kept temp st).
  rewrite Hblock. destruct (tempdir_delete kwargs); [|done].
  f_equal. exact Hswept.
Qed.

End GistNeverRuns.

Lemma run_gist_never_runs_witness :
  let rt := echo_runtime (Ok (VDict [("code", VStr "print(1)")])) in
  plain_name "abc123" = true
  /\ Blender.run_gist "abc123" None [("dir", VStr "/tmp")] (Ok "/tmp/tmpq1")
       fresh_blender
     = (fresh_blender, Raise FileNotFoundError)
  /\ Blender.run_gist "abc123" None [("mode", VNum 448)] (Ok "/tmp/tmpq1")
       fresh_blender
     = (fresh_blender, Raise TypeError).
Proof.
  intros rt.
  assert (Hclean : forall temp p : string,
             Ok "/tmp/tmpq1" = Ok temp -> under temp p = true ->
             files fresh_blender !! p = None)
    by (intros temp p _ _; apply lookup_empty).
  split; [reflexivity|]. split.
  - exact (@run_gist_never_runs rt "abc123" None [("dir", VStr "/tmp")]
             (Ok "/tmp/tmpq1") fresh_blender eq_refl Hclean).
  - exact (@run_gist_never_runs rt "abc123" None [("mode", VNum 448)]
             (Ok "/tmp/tmpq1") fresh_blender eq_refl Hclean).
Defined.

(** ** [speak] *)

Section Speak.

Lemma existsb_no_str (l : list value) :
  Forall (fun v => is_str v = false) l -> existsb is_str l = false.
Proof. induction 1 as [|v l Hv _ IH]; simpl; [done|]. by rewrite Hv. Qed.

Lemma existsb_some_str (l : list value) :
  Exists (fun v => is_str v = true) l -> existsb is_str l = true.
Proof.
  induction 1 as [v l Hv|v l _ IH]; simpl.
  - by rewrite Hv.
  - rewrite IH. by destruct (is_str v).
Qed.

Lemma join_letters_length (cs : list ascii) :
  cs <> [] ->
  String.length (join " " (map (fun c => String c "") cs))
  = 2 * length cs - 1.
Proof.
  induction cs as [|c cs IH]; [done|]. intros _.
  destruct cs as [|c' cs]; [done|].
  change (S (S (String.length
                  (join " " (map (fun c => String c "") (c' :: cs)))))
          = 2 * length (c :: c' :: cs) - 1).
  rewrite IH by done. simpl. lia.
Qed.

Lemma letters_length (s : string) :
  length (list_ascii_of_string s) = String.length s.
Proof. induction s as [|c s IH]; simpl; [done|]. by rewrite IH. Qed.

(** X11: [speak] on a list.  With no string in the list, and so with
    the empty list, it raises [ValueError]; with strings only it prints
    them joined by spaces; with one string among other objects the
    test lets the list pass and [join] raises [TypeError].  The two
    versions of [speak] are the same. *)
Theorem speak_list (l : list value) :
  (Forall (fun v => is_str v = false) l ->
   Blender.speak (VList l) = Raise (ValueError "I only use strings."))
  /\ (forall ss, l = map VStr ss -> ss <> [] ->
                 Blender.speak (VList l) = Ok (VStr (join " " ss)))
  /\ (Exists (fun v => is_str v = true) l ->
      Exists (fun v => is_str v = false) l ->
      Blender.speak (VList l) = Raise TypeError)
  /\ SrcMain.speak (VList l) = Blender.speak (VList l).
Proof.
  unfold SrcMain.speak, Blender.speak. simpl. repeat apply conj; [| | |done].
  - intros Hnone. by rewrite (existsb_no_str _ Hnone).
  - intros ss -> Hss. rewrite py_join_map.
    destruct ss as [|x ss]; [done|]. done.
  - intros Hsome Hbad. rewrite (existsb_some_str _ Hsome). simpl.
    unfold py_join. by rewrite (all_str_non_str _ Hbad).
Qed.

(** X12: [speak] on a single string.  A string is iterable, so its
    characters are joined by spaces: a string of [n > 0] characters is
    printed as [2n - 1] characters, and the empty string raises
    [ValueError]. *)
Theorem speak_str (s : string) :
  Blender.speak (VStr "") = Raise (ValueError "I only use strings.")
  /\ (s <> "" ->
      Blender.speak (VStr s)
      = Ok (VStr (join " " (map (fun c => String c "")
                              (list_ascii_of_string s))))
      /\ String.length
           (join " " (map (fun c => String c "") (list_ascii_of_string s)))
         = 2 * String.length s - 1).
Proof.
  split; [done|]. intros Hs. split.
  - unfold Blender.speak. simpl.
    rewrite <- (map_map (fun c => String c "") VStr).
    rewrite py_join_map. by destruct s.
  - rewrite join_letters_length, letters_length; [done|].
    by destruct s.
Qed.

End Speak.

Lemma speak_list_witness :
  Blender.speak (VList []) = Raise (ValueError "I only use strings.")
  /\ Blender.speak (VList (map VStr ["render"; "done"]))
     = Ok (VStr "render done")
  /\ Blender.speak (VList [VStr "frame"; VNum 12]) = Raise TypeError.
Proof.
  split; [|split].
  - apply (proj1 (speak_list [])). constructor.
  - apply (proj1 (proj2 (speak_list (map VStr ["render"; "done"])))
             ["render"; "done"]); done.
  - apply (proj1 (proj2 (proj2 (speak_list [VStr "frame"; VNum 12])))).
    + by left.
    + right. by left.
Defined.

Lemma speak_str_witness :
  "done" <> ""
  /\ Blender.speak (VStr "done") = Ok (VStr "d o n e")
  /\ String.length "d o n e" = 2 * String.length "done" - 1.
Proof.
  assert (Hs : "done" <> "") by discriminate.
  split; [exact Hs|].
  exact (proj2 (speak_str "done") Hs).
Defined.

(** ** A sequence of calls on one instance *)

Section History.
Context `{Runtime}.

Lemma run_history_step (st : state) (script binary : option string)
    (args : list value) (kwargs : list (string * value)) :
  exists cmds,
    spawned (Blender.run script binary args kwargs st).1 = spawned st ++ cmds
    /\ length cmds <= 1.
Proof.
  assert (Hnone : forall l : list string, exists cmds,
                    l = l ++ cmds /\ length cmds <= 1).
  { intros l. exists []. rewrite app_nil_r. split; [done|simpl; lia]. }
  unfold_run. destruct binary, script; simpl; try apply Hnone;
    (destruct (py_join " " args); simpl; [|apply Hnone]);
    destruct (popen _ _); simpl; eexists [_]; (split; [done|simpl; lia]).
Qed.

(** X13: over any sequence of [run] calls on one instance, the commands
    already handed to the shell stay as they are, each call adds at
    most one, and [self.app] ends as the binary of the last call that
    passed one. *)
Theorem run_calls_history (cs : list call) (st : state) :
  spawned st `prefix_of` spawned (run_calls cs st)
  /\ length (spawned (run_calls cs st)) <= length (spawned st) + length cs
  /\ (forall cs1 c cs2 b,
         cs = cs1 ++ c :: cs2 ->
         call_binary c = Some b ->
         Forall (fun c' => call_binary c' = None) cs2 ->
         app (run_calls cs st) = b).
Proof.
  split; [|split].
  - revert st. induction cs as [|c cs IH]; intros st; simpl; [done|].
    etrans; [|apply IH]. unfold run_call.
    destruct (run_history_step st (call_script c) (call_binary c)
                (call_args c) (call_kwargs c)) as (cmds & -> & _).
    by apply prefix_app_r.
  - revert st. induction cs as [|c cs IH]; intros st; simpl; [lia|].
    etrans; [apply IH|]. unfold run_call.
    destruct (run_history_step st (call_script c) (call_binary c)
                (call_args c) (call_kwargs c)) as (cmds & -> & Hlen).
    rewrite length_app. lia.
  - intros cs1 c cs2 b -> Hb Hcs2. unfold run_calls.
    rewrite fold_left_app. simpl.
    fold (run_calls cs2 (run_call c (fold_left (fun st c => run_call c st)
                                       cs1 st))).
    rewrite (run_calls_app _ _ Hcs2). unfold run_call.
    by rewrite run_app, Hb.
Qed.

End History.

Lemma run_calls_history_witness :
  let rt := echo_runtime offline in
  let cs := [mkCall (Some "a") None [] [];
             mkCall None (Some "/opt/blender") [] [];
             mkCall (Some "b") None [VNum 1] []] in
  app (run_calls cs fresh_blender) = "/opt/blender"
  /\ length (spawned (run_calls cs fresh_blender)) <= 0 + 3.
Proof.
  intros rt cs.
  destruct (@run_calls_history rt cs fresh_blender) as (_ & Hlen & Happ).
  split; [|exact Hlen].
  apply (Happ [mkCall (Some "a") None [] []]
           (mkCall None (Some "/opt/blender") [] [])
           [mkCall (Some "b") None [VNum 1] []] "/opt/blender");
    [done|done|by repeat constructor].
Defined.
